(** * Gesture-controlled robot: the per-frame pipeline of [main.py]

    A shallow embedding of the control script that drives a Pioneer p3dx in
    CoppeliaSim from hand gestures.  The script is one module-level loop; the
    embedding keeps its blocks in source order:

    - lines 52-59: the landmark list [lm_list] built from every detected hand;
    - lines 62-68: the [fingers] list (thumb, then the four other fingers);
    - lines 70-80: the finger count and the update of [current_command];
    - lines 83-94: the dispatch on [current_command] to the two motors;
    - lines 100-106: the keypress test and the clean-up after the loop.

    Python values are modelled as the script has them: integers as [Z],
    lists as [list] with Python's indexing (an out-of-range index raises
    [IndexError]), the command as a [string], the velocities as binary64
    floats.  The camera, the landmark detector and the keyboard are inputs
    of an iteration; calls on the simulator and on the capture device are
    recorded as events.  The session with the simulator (lines 18-29) is
    taken as open, and the overlay drawn on the frame is left out. *)

From Stdlib Require Import ZArith PrimFloat.
From stdpp Require Import base list list_numbers strings.

Local Open Scope string_scope.
Local Open Scope list_scope.
Local Open Scope Z_scope.

(** ** Python exceptions and list indexing *)

Inductive exn : Set := IndexError.

Inductive result (A : Type) : Type :=
| Ok (a : A)
| Raise (e : exn).
Arguments Ok {A} a.
Arguments Raise {A} e.

#[global] Instance result_ret : MRet result := λ A a, Ok a.
#[global] Instance result_bind : MBind result := λ A B f m,
  match m with
  | Ok a => f a
  | Raise e => Raise e
  end.

(** [l[i]]: a negative index counts from the end, anything outside the list
    raises. *)
Definition getitem {A : Type} (l : list A) (i : Z) : result A :=
  let j := if i <? 0 then i + Z.of_nat (length l) else i in
  if j <? 0 then Raise IndexError
  else match l !! Z.to_nat j with
       | Some x => Ok x
       | None => Raise IndexError
       end.

(** [range(a, b)] *)
Definition range (a b : Z) : list Z := seqZ a (b - a).

(** [l.count(x)] *)
Definition count (l : list Z) (x : Z) : Z :=
  Z.of_nat (length (filter (λ y, y = x) l)).

(** Truth value of a list in a condition. *)
Definition truthy {A : Type} (l : list A) : bool :=
  match l with
  | [] => false
  | _ :: _ => true
  end.

(** ** Landmarks (lines 52-59) *)

(** One entry of [lm_list]: the tuple [(id, cx, cy)]. *)
Definition lm_entry : Type := Z * Z * Z.

Definition item1 (e : lm_entry) : Z := e.1.2.
Definition item2 (e : lm_entry) : Z := e.2.

(** A detected hand, as the pixel positions [(cx, cy)] of its landmarks:
    the values [int(lm.x * w)] and [int(lm.y * h)] of line 57. *)
Definition hand_landmark : Type := list (Z * Z).

(** [enumerate] and the inner loop of lines 56-58. *)
Definition hand_entries (hand : hand_landmark) : list lm_entry :=
  imap (λ id lm, (Z.of_nat id, lm.1, lm.2)) hand.

(** Lines 52-59: [multi_hand_landmarks] is [None] or a list of hands; every
    hand's entries are appended to the same list. *)
Definition build_lm_list (multi_hand_landmarks : option (list hand_landmark))
  : list lm_entry :=
  match multi_hand_landmarks with
  | None => []
  | Some hands =>
      if truthy hands then foldl (λ lm_list hand, lm_list ++ hand_entries hand) [] hands
      else []
  end.

(** ** Finger states (lines 62-68) *)

Definition tip_ids : list Z := [4; 8; 12; 16; 20].

(** Line 65. *)
Definition thumb (lm_list : list lm_entry) : result Z :=
  t ← getitem tip_ids 0;
  tip ← getitem lm_list t;
  t' ← getitem tip_ids 0;
  joint ← getitem lm_list (t' - 1);
  mret (if bool_decide (item1 tip > item1 joint) then 1 else 0).

(** Line 68, for one [i]. *)
Definition finger (lm_list : list lm_entry) (i : Z) : result Z :=
  t ← getitem tip_ids i;
  tip ← getitem lm_list t;
  t' ← getitem tip_ids i;
  joint ← getitem lm_list (t' - 2);
  mret (if bool_decide (item2 tip < item2 joint) then 1 else 0).

(** The loop of lines 67-68 over the remaining values of [i]. *)
Fixpoint other_fingers (lm_list : list lm_entry) (todo : list Z) (fingers : list Z)
  : result (list Z) :=
  match todo with
  | [] => mret fingers
  | i :: todo' =>
      f ← finger lm_list i;
      other_fingers lm_list todo' (fingers ++ [f])
  end.

(** Lines 63-68. *)
Definition extract_fingers (lm_list : list lm_entry) : result (list Z) :=
  f ← thumb lm_list;
  other_fingers lm_list (range 1 5) ([] ++ [f]).

(** ** Command update (lines 70-80) *)

Definition classify (fingers : list Z) (current_command : string) : string :=
  let total_fingers := count fingers 1 in
  if total_fingers =? 0 then "FORWARD"
  else if total_fingers =? 1 then "REVERSE"
  else if total_fingers =? 2 then "TURN"
  else if total_fingers =? 5 then "STOP"
  else current_command.

(** Lines 62-80 as a transformer of the latched command: the outcome of the
    block and the value of [current_command] when it ends or raises. *)
Definition interpret_gesture (lm_list : list lm_entry) (current_command : string)
  : result () * string :=
  if truthy lm_list then
    match extract_fingers lm_list with
    | Raise e => (Raise e, current_command)
    | Ok fingers => (Ok (), classify fingers current_command)
    end
  else (Ok (), current_command).

(** ** Actuation (lines 83-94) *)

Inductive motor : Set := left_motor | right_motor.

Inductive event : Type :=
| SetJointTargetVelocity (m : motor) (v : float)
| WaitKey (key : Z)
| CapRelease
| DestroyAllWindows
| SimxFinish.

Definition send_command (current_command : string) : list event :=
  if String.eqb current_command "FORWARD" then
    [SetJointTargetVelocity left_motor 2.0; SetJointTargetVelocity right_motor 2.0]
  else if String.eqb current_command "REVERSE" then
    [SetJointTargetVelocity left_motor (-2.0); SetJointTargetVelocity right_motor (-2.0)]
  else if String.eqb current_command "TURN" then
    [SetJointTargetVelocity left_motor (-1.0); SetJointTargetVelocity right_motor 1.0]
  else if String.eqb current_command "STOP" then
    [SetJointTargetVelocity left_motor 0.0; SetJointTargetVelocity right_motor 0.0]
  else [].

(** ** The loop (lines 37-106) *)

(** What one iteration reads: [cap.read()] fails, or a frame is captured,
    the detector reports its hands and [cv2.waitKey(1)] returns [key]. *)
Inductive capture : Type :=
| ReadFailed
| Captured (multi_hand_landmarks : option (list hand_landmark)) (key : Z).

Inductive control : Set :=
| Continue
| Break
| Uncaught (e : exn).

(** [ord('q')] *)
Definition ord_q : Z := 113.

(** Line 100: [cv2.waitKey(1) & 0xFF == ord('q')]. *)
Definition quit_key (key : Z) : bool := Z.land key 255 =? ord_q.

(** One pass through the body of [while True] (lines 42-101). *)
Definition iteration (inp : capture) (current_command : string)
  : string * list event * control :=
  match inp with
  | ReadFailed => (current_command, [], Continue)
  | Captured multi_hand_landmarks key =>
      let lm_list := build_lm_list multi_hand_landmarks in
      match interpret_gesture lm_list current_command with
      | (Raise e, current_command) => (current_command, [], Uncaught e)
      | (Ok _, current_command) =>
          (current_command,
           send_command current_command ++ [WaitKey key],
           if quit_key key then Break else Continue)
      end
  end.

(** Lines 104-106. *)
Definition clean_up : list event := [CapRelease; DestroyAllWindows; SimxFinish].

Inductive status : Set :=
| Looping
| Exited
| Crashed (e : exn).

Record run : Type := Run {
  latch : string;
  trace : list event;
  ended : status
}.

(** Line 37. *)
Definition initial_command : string := "STOP".

(** The loop on a finite sequence of captures.  It is still [Looping] when
    the captures are used up; it has [Exited] after [break] and the clean-up;
    an exception that nothing catches ends the script where it is raised. *)
Fixpoint main_loop (inputs : list capture) (current_command : string) : run :=
  match inputs with
  | [] => Run current_command [] Looping
  | inp :: inputs' =>
      match iteration inp current_command with
      | (current_command, evs, Continue) =>
          let r := main_loop inputs' current_command in
          Run (latch r) (evs ++ trace r) (ended r)
      | (current_command, evs, Break) =>
          Run current_command (evs ++ clean_up) Exited
      | (current_command, evs, Uncaught e) =>
          Run current_command evs (Crashed e)
      end
  end.

Definition script (inputs : list capture) : run := main_loop inputs initial_command.

(** ** Vocabulary of the specification *)

(** A finger state is five booleans (thumb, index, middle, ring, pinky); the
    script stores it as the integers 1 and 0. *)
Definition fingers_of_state (state : list bool) : list Z :=
  (λ b : bool, if b then 1 else 0) <$> state.

Definition count_true (state : list bool) : nat :=
  length (filter (λ b, b = true) state).

(** The closed enumeration of motion commands. *)
Definition commands : list string := ["FORWARD"; "REVERSE"; "TURN"; "STOP"].

Definition valid_command (c : string) : Prop := c ∈ commands.

(** The geometric rules on a landmark list: landmark 4 against landmark 3 on
    x for the thumb, a tip against the landmark two below it on y for the
    others. *)
Definition thumb_extended (lm_list : list lm_entry) : Prop :=
  ∃ tip joint, lm_list !! 4%nat = Some tip ∧ lm_list !! 3%nat = Some joint
               ∧ item1 tip > item1 joint.

Definition finger_extended (lm_list : list lm_entry) (tip_id : nat) : Prop :=
  ∃ tip joint, lm_list !! tip_id = Some tip ∧ lm_list !! (tip_id - 2)%nat = Some joint
               ∧ item2 tip < item2 joint.

(** The latching cases of a frame: no landmark at all, or a finger state with
    three or four extended fingers. *)
Definition latching_case (lm_list : list lm_entry) : Prop :=
  lm_list = []
  ∨ ∃ state, length state = 5%nat
             ∧ extract_fingers lm_list = Ok (fingers_of_state state)
             ∧ (count_true state = 3%nat ∨ count_true state = 4%nat).

(** A frame with a recognized gesture: a hand is captured and zero, one, two
    or five of its fingers are extended. *)
Definition recognized_frame (inp : capture) : Prop :=
  ∃ multi_hand_landmarks key state,
    inp = Captured multi_hand_landmarks key
    ∧ length state = 5%nat
    ∧ extract_fingers (build_lm_list multi_hand_landmarks) = Ok (fingers_of_state state)
    ∧ count_true state ∈ [0; 1; 2; 5]%nat.

(** The pair (left, right) of setpoints of a dispatch: one call for each
    motor, the left one first. *)
Definition velocity_pair (evs : list event) : option (float * float) :=
  match evs with
  | [SetJointTargetVelocity left_motor l; SetJointTargetVelocity right_motor r] =>
      Some (l, r)
  | _ => None
  end.

(** The events of a trace after the keypress that ends the loop. *)
Fixpoint after_quit (tr : list event) : option (list event) :=
  match tr with
  | [] => None
  | WaitKey key :: tr' => if quit_key key then Some tr' else after_quit tr'
  | _ :: tr' => after_quit tr'
  end.

(** The events up to the release of the capture device. *)
Fixpoint until_release (tr : list event) : list event :=
  match tr with
  | [] => []
  | CapRelease :: _ => []
  | e :: tr' => e :: until_release tr'
  end.

(** Both motors are sent the setpoint 0.0. *)
Definition stop_sent (evs : list event) : Prop :=
  SetJointTargetVelocity left_motor 0.0 ∈ evs
  ∧ SetJointTargetVelocity right_motor 0.0 ∈ evs.

(** A STOP goes out between the quitting keypress and the release. *)
Definition stop_on_exit (tr : list event) : Prop :=
  ∃ evs, after_quit tr = Some evs ∧ stop_sent (until_release evs).

(** Test hands: every landmark on one point (no finger raised), and landmarks
    on an anti-diagonal (every finger raised). *)
Definition fist : hand_landmark := replicate 21 (0, 0).

Definition open_hand : hand_landmark :=
  (λ i : nat, (Z.of_nat i, 20 - Z.of_nat i)) <$> seq 0 21.

(** Index and middle finger raised. *)
Definition two_fingers : hand_landmark :=
  <[8%nat := (0, -1)]> (<[12%nat := (0, -1)]> fist).

(** Index, middle and ring finger raised. *)
Definition three_fingers : hand_landmark := <[16%nat := (0, -1)]> two_fingers.

(** A hand reported with 22 landmarks, and one with 7. *)
Definition long_hand : hand_landmark := replicate 22 (0, 0).

Definition short_hand : hand_landmark := replicate 7 (0, 0).

(** A fist is shown, then [q] is pressed on the next frame. *)
Definition quit_while_forward : list capture :=
  [Captured (Some [fist]) (-1); Captured None ord_q].

(** ** Vocabulary of the further properties *)

(** The coordinates that a position of the landmark list holds, if any. *)
Definition x_at (lm_list : list lm_entry) (i : nat) : option Z := item1 <$> lm_list !! i.

Definition y_at (lm_list : list lm_entry) (i : nat) : option Z := item2 <$> lm_list !! i.

(** The positions whose y the four fingers compare. *)
Definition finger_positions : list nat := [6; 8; 10; 12; 14; 16; 18; 20]%nat.


(** The same hand in a frame of width [w] flipped left to right. *)
Definition mirror (w : Z) (e : lm_entry) : lm_entry := (e.1.1, w - item1 e, item2 e).

(** A capture whose read succeeded. *)
Definition is_captured (inp : capture) : bool :=
  match inp with
  | ReadFailed => false
  | Captured _ _ => true
  end.

(** The shape of the trace of a run that ended as [st]: one block per shown
    frame, the row of a command of the enumeration and then the key that was
    read; the clean-up follows the quitting key and nothing follows it. *)
Inductive run_trace : status → list event → Prop :=
| run_trace_looping : run_trace Looping []
| run_trace_crashed e : run_trace (Crashed e) []
| run_trace_exit c key :
    valid_command c → quit_key key = true →
    run_trace Exited ((send_command c ++ [WaitKey key]) ++ clean_up)
| run_trace_frame st c key tr :
    valid_command c → quit_key key = false → run_trace st tr →
    run_trace st ((send_command c ++ [WaitKey key]) ++ tr).

(** * Properties *)

(** ** Indexing *)

Lemma getitem_nat {A : Type} (l : list A) (n : nat) :
  getitem l (Z.of_nat n) =
  match l !! n with Some x => Ok x | None => Raise IndexError end.
Proof.
  unfold getitem.
  destruct (Z.ltb_spec (Z.of_nat n) 0) as [Hneg | _]; [lia |].
  destruct (Z.ltb_spec (Z.of_nat n) 0) as [Hneg | _]; [lia |].
  by rewrite Nat2Z.id.
Qed.

Lemma getitem_take {A : Type} (l : list A) (k n : nat) :
  (n < k)%nat → getitem (take k l) (Z.of_nat n) = getitem l (Z.of_nat n).
Proof. intros Hlt. rewrite !getitem_nat. by rewrite lookup_take_lt. Qed.

(** ** The extractor reads ten fixed positions *)

Lemma thumb_unfold lm_list :
  thumb lm_list =
  (tip ← getitem lm_list (Z.of_nat 4);
   joint ← getitem lm_list (Z.of_nat 3);
   mret (if bool_decide (item1 tip > item1 joint) then 1 else 0)).
Proof. reflexivity. Qed.

Lemma finger_unfold lm_list (k : nat) :
  (1 ≤ k ≤ 4)%nat →
  finger lm_list (Z.of_nat k) =
  (tip ← getitem lm_list (Z.of_nat (4 * k + 4));
   joint ← getitem lm_list (Z.of_nat (4 * k + 2));
   mret (if bool_decide (item2 tip < item2 joint) then 1 else 0)).
Proof.
  intros Hk.
  assert (k = 1 ∨ k = 2 ∨ k = 3 ∨ k = 4)%nat as Hcases by lia.
  destruct Hcases as [-> | [-> | [-> | ->]]]; reflexivity.
Qed.

Lemma extract_fingers_unfold lm_list :
  extract_fingers lm_list =
  (f0 ← thumb lm_list;
   f1 ← finger lm_list (Z.of_nat 1);
   f2 ← finger lm_list (Z.of_nat 2);
   f3 ← finger lm_list (Z.of_nat 3);
   f4 ← finger lm_list (Z.of_nat 4);
   mret [f0; f1; f2; f3; f4]).
Proof.
  unfold extract_fingers.
  destruct (thumb lm_list) as [f0 |]; [| reflexivity].
  change (range 1 5) with [1; 2; 3; 4]. cbn.
  destruct (finger lm_list 1) as [f1 |]; [| reflexivity]. cbn.
  destruct (finger lm_list 2) as [f2 |]; [| reflexivity]. cbn.
  destruct (finger lm_list 3) as [f3 |]; [| reflexivity]. cbn.
  destruct (finger lm_list 4) as [f4 |]; reflexivity.
Qed.

Lemma extract_fingers_take lm_list :
  extract_fingers (take 21 lm_list) = extract_fingers lm_list.
Proof.
  rewrite !extract_fingers_unfold, !thumb_unfold.
  rewrite !finger_unfold by lia.
  by rewrite !getitem_take by lia.
Qed.

(** A list of at least 21 entries, seen through its first 21. *)
Lemma take_21_cons (lm_list : list lm_entry) :
  (21 ≤ length lm_list)%nat →
  ∃ e0 e1 e2 e3 e4 e5 e6 e7 e8 e9 e10 e11 e12 e13 e14 e15 e16 e17 e18 e19 e20,
    take 21 lm_list =
    [e0; e1; e2; e3; e4; e5; e6; e7; e8; e9; e10; e11; e12; e13; e14; e15; e16;
     e17; e18; e19; e20].
Proof.
  intros Hlen.
  do 21 (destruct lm_list as [| ? lm_list]; [cbn in Hlen; lia |]).
  by do 21 eexists.
Qed.

Lemma extract_fingers_21 (e0 e1 e2 e3 e4 e5 e6 e7 e8 e9 e10 e11 e12 e13 e14 e15
                          e16 e17 e18 e19 e20 : lm_entry) :
  extract_fingers
    [e0; e1; e2; e3; e4; e5; e6; e7; e8; e9; e10; e11; e12; e13; e14; e15; e16;
     e17; e18; e19; e20] =
  Ok (fingers_of_state
        [bool_decide (item1 e4 > item1 e3);
         bool_decide (item2 e8 < item2 e6);
         bool_decide (item2 e12 < item2 e10);
         bool_decide (item2 e16 < item2 e14);
         bool_decide (item2 e20 < item2 e18)]).
Proof. reflexivity. Qed.

(** The extractor succeeds on every list of 21 entries or more. *)
Lemma extract_fingers_long lm_list :
  (21 ≤ length lm_list)%nat →
  ∃ state, length state = 5%nat ∧ extract_fingers lm_list = Ok (fingers_of_state state).
Proof.
  intros Hlen. rewrite <- extract_fingers_take.
  destruct (take_21_cons lm_list Hlen)
    as (e0&e1&e2&e3&e4&e5&e6&e7&e8&e9&e10&e11&e12&e13&e14&e15&e16&e17&e18&e19&e20&->).
  rewrite extract_fingers_21. eexists. split; [| reflexivity]. reflexivity.
Qed.

(** It raises on every shorter one: position 20 is read last and is missing. *)
Lemma extract_fingers_short lm_list :
  (length lm_list < 21)%nat → extract_fingers lm_list = Raise IndexError.
Proof.
  intros Hlen.
  do 21 (destruct lm_list as [| ? lm_list]; [reflexivity |]).
  cbn in Hlen. lia.
Qed.

Lemma extract_fingers_shape lm_list fingers :
  extract_fingers lm_list = Ok fingers →
  (21 ≤ length lm_list)%nat
  ∧ ∃ state, length state = 5%nat ∧ fingers = fingers_of_state state.
Proof.
  intros Hok.
  destruct (decide (length lm_list < 21)%nat) as [Hshort | Hlong].
  - by rewrite extract_fingers_short in Hok.
  - split; [lia |].
    destruct (extract_fingers_long lm_list) as (state & Hlen & Hst); [lia |].
    exists state. split; [done |]. congruence.
Qed.

(** C4: on a list of exactly 21 landmarks the extractor returns five finger
    states; the thumb is extended iff landmark 4 has a strictly greater x than
    landmark 3, and each of the index, middle, ring and pinky (tips 8, 12, 16,
    20) is extended iff its tip has a strictly smaller y than the landmark two
    indices below it. *)
Theorem extract_fingers_rules (lm_list : list lm_entry) :
  length lm_list = 21%nat →
  ∃ thumb index middle ring pinky : bool,
    extract_fingers lm_list = Ok (fingers_of_state [thumb; index; middle; ring; pinky])
    ∧ (thumb = true ↔ thumb_extended lm_list)
    ∧ (index = true ↔ finger_extended lm_list 8)
    ∧ (middle = true ↔ finger_extended lm_list 12)
    ∧ (ring = true ↔ finger_extended lm_list 16)
    ∧ (pinky = true ↔ finger_extended lm_list 20).
Proof.
  intros Hlen.
  do 21 (destruct lm_list as [| ? lm_list]; [discriminate Hlen |]).
  destruct lm_list; [| discriminate Hlen].
  eexists _, _, _, _, _. split; [apply extract_fingers_21 |].
  unfold thumb_extended, finger_extended.
  repeat split; rewrite ?bool_decide_eq_true; cbn;
    solve [ intros; eexists _, _; done
          | intros (tip & joint & [= <-] & [= <-] & Hcmp); done ].
Qed.

Lemma extract_fingers_rules_witness :
  length (hand_entries two_fingers) = 21%nat
  ∧ ∃ thumb index middle ring pinky : bool,
      extract_fingers (hand_entries two_fingers)
      = Ok (fingers_of_state [thumb; index; middle; ring; pinky])
      ∧ (thumb = true ↔ thumb_extended (hand_entries two_fingers))
      ∧ (index = true ↔ finger_extended (hand_entries two_fingers) 8)
      ∧ (middle = true ↔ finger_extended (hand_entries two_fingers) 12)
      ∧ (ring = true ↔ finger_extended (hand_entries two_fingers) 16)
      ∧ (pinky = true ↔ finger_extended (hand_entries two_fingers) 20).
Proof.
  split; [reflexivity |].
  apply (extract_fingers_rules (hand_entries two_fingers)). reflexivity.
Defined.

(** ** Classification *)

Lemma valid_command_iff (c : string) :
  valid_command c ↔ c = "FORWARD" ∨ c = "REVERSE" ∨ c = "TURN" ∨ c = "STOP".
Proof.
  unfold valid_command, commands. rewrite !elem_of_cons, elem_of_nil. tauto.
Qed.

Lemma count_fingers_of_state (state : list bool) :
  count (fingers_of_state state) 1 = Z.of_nat (count_true state).
Proof.
  unfold count, count_true, fingers_of_state. f_equal.
  induction state as [| b state IH]; [reflexivity |].
  rewrite fmap_cons. destruct b.
  - rewrite !filter_cons_True by done. cbn [length]. by rewrite IH.
  - rewrite !filter_cons_False by done. exact IH.
Qed.

Lemma count_true_le (state : list bool) : (count_true state ≤ length state)%nat.
Proof. apply length_filter. Qed.

Lemma classify_count (fingers : list Z) (current_command : string) :
  classify fingers current_command =
  if count fingers 1 =? 0 then "FORWARD"
  else if count fingers 1 =? 1 then "REVERSE"
  else if count fingers 1 =? 2 then "TURN"
  else if count fingers 1 =? 5 then "STOP"
  else current_command.
Proof. reflexivity. Qed.

Lemma interpret_gesture_Ok lm_list fingers current_command :
  extract_fingers lm_list = Ok fingers →
  interpret_gesture lm_list current_command = (Ok (), classify fingers current_command).
Proof.
  intros Hok. unfold interpret_gesture. rewrite Hok.
  destruct lm_list; [discriminate Hok | reflexivity].
Qed.

(** C1: for a finger state of five booleans with n true values, the
    classifier returns FORWARD for n = 0, REVERSE for n = 1, TURN for n = 2
    and STOP for n = 5, whatever the previous command is. *)
Theorem classify_recognized (state : list bool) (previous : string) :
  length state = 5%nat →
  (count_true state = 0%nat → classify (fingers_of_state state) previous = "FORWARD")
  ∧ (count_true state = 1%nat → classify (fingers_of_state state) previous = "REVERSE")
  ∧ (count_true state = 2%nat → classify (fingers_of_state state) previous = "TURN")
  ∧ (count_true state = 5%nat → classify (fingers_of_state state) previous = "STOP").
Proof.
  intros _. rewrite classify_count, count_fingers_of_state.
  repeat split; intros ->; reflexivity.
Qed.

Lemma classify_recognized_witness :
  length [false; true; false; false; false] = 5%nat
  ∧ classify (fingers_of_state [false; true; false; false; false]) "TURN" = "REVERSE".
Proof.
  split; [reflexivity |].
  apply (classify_recognized [false; true; false; false; false] "TURN");
    reflexivity.
Defined.

Lemma classify_unrecognized (state : list bool) (previous : string) :
  count_true state = 3%nat ∨ count_true state = 4%nat →
  classify (fingers_of_state state) previous = previous.
Proof.
  intros Hn. rewrite classify_count, count_fingers_of_state.
  by destruct Hn as [-> | ->].
Qed.

Lemma classify_fixes_all (state : list bool) :
  length state = 5%nat →
  classify (fingers_of_state state) "STOP" = "STOP" →
  classify (fingers_of_state state) "FORWARD" = "FORWARD" →
  count_true state = 3%nat ∨ count_true state = 4%nat.
Proof.
  intros Hlen. rewrite !classify_count, count_fingers_of_state.
  pose proof (count_true_le state) as Hle. rewrite Hlen in Hle.
  assert (count_true state ∈ [0; 1; 2; 3; 4; 5]%nat) as Hn.
  { rewrite !elem_of_cons. lia. }
  rewrite !elem_of_cons in Hn.
  destruct Hn as [-> | [-> | [-> | [-> | [-> | [-> | []%elem_of_nil]]]]]];
    cbn; intros; by auto.
Qed.

(** C2: the command comes back unchanged, for every previous command, when no
    hand is observed and when three or four fingers are extended; and these
    are the only frames that leave every previous command unchanged. *)
Theorem latch_holds (lm_list : list lm_entry) :
  (latching_case lm_list →
   ∀ previous, interpret_gesture lm_list previous = (Ok (), previous))
  ∧ ((∀ previous, valid_command previous →
                  interpret_gesture lm_list previous = (Ok (), previous)) →
     latching_case lm_list).
Proof.
  split.
  - intros [-> | (state & _ & Hok & Hn)] previous; [reflexivity |].
    rewrite (interpret_gesture_Ok _ _ _ Hok).
    by rewrite classify_unrecognized.
  - intros Hfix.
    destruct lm_list as [| e lm_list]; [by left | right].
    assert (valid_command "STOP") as HS by (apply valid_command_iff; auto).
    assert (valid_command "FORWARD") as HF by (apply valid_command_iff; auto).
    pose proof (Hfix _ HS) as Hstop. pose proof (Hfix _ HF) as Hfwd.
    unfold interpret_gesture in Hstop, Hfwd. cbn [truthy] in Hstop, Hfwd.
    destruct (extract_fingers (e :: lm_list)) as [fingers |] eqn:Hok;
      [| discriminate Hstop].
    destruct (extract_fingers_shape _ _ Hok) as (_ & state & Hlen & ->).
    exists state. repeat split; [done |].
    apply classify_fixes_all; [done | congruence | congruence].
Qed.

(** ** Actuation *)

(** C3: the dispatch is a fixed table: FORWARD sends (2.0, 2.0), REVERSE
    (-2.0, -2.0), TURN (-1.0, 1.0) and STOP (0.0, 0.0); and what an iteration
    sends is the table's row for the command it latched, whatever the frame
    and the command before it. *)
Theorem send_command_table :
  velocity_pair (send_command "FORWARD") = Some (2.0, 2.0)%float
  ∧ velocity_pair (send_command "REVERSE") = Some (-2.0, -2.0)%float
  ∧ velocity_pair (send_command "TURN") = Some (-1.0, 1.0)%float
  ∧ velocity_pair (send_command "STOP") = Some (0.0, 0.0)%float
  ∧ ∀ multi_hand_landmarks key previous,
      let '(current_command, evs, ctl) :=
        iteration (Captured multi_hand_landmarks key) previous in
      evs = send_command current_command ++ [WaitKey key]
      ∨ (∃ e, ctl = Uncaught e) ∧ evs = [].
Proof.
  repeat split; try reflexivity.
  intros mh key previous. unfold iteration.
  destruct (interpret_gesture (build_lm_list mh) previous) as [[[] | e] c].
  - by left.
  - right. eauto.
Qed.

(** C10: for every command of the enumeration the two setpoints have the
    same absolute value and each lies between -2.0 and 2.0. *)
Theorem velocity_pair_balanced (cmd : string) :
  valid_command cmd →
  ∃ l r : float,
    velocity_pair (send_command cmd) = Some (l, r)
    ∧ PrimFloat.eqb (PrimFloat.abs l) (PrimFloat.abs r) = true
    ∧ PrimFloat.leb (-2.0) l = true ∧ PrimFloat.leb l 2.0 = true
    ∧ PrimFloat.leb (-2.0) r = true ∧ PrimFloat.leb r 2.0 = true.
Proof.
  intros [-> | [-> | [-> | ->]]]%valid_command_iff;
    eexists _, _; repeat split; reflexivity.
Qed.

Lemma velocity_pair_balanced_witness :
  ∃ l r : float,
    velocity_pair (send_command "TURN") = Some (l, r)
    ∧ PrimFloat.eqb (PrimFloat.abs l) (PrimFloat.abs r) = true
    ∧ PrimFloat.leb (-2.0) l = true ∧ PrimFloat.leb l 2.0 = true
    ∧ PrimFloat.leb (-2.0) r = true ∧ PrimFloat.leb r 2.0 = true.
Proof.
  apply (velocity_pair_balanced "TURN").
  apply valid_command_iff. right. right. left. reflexivity.
Defined.

Lemma left_not_valid : ¬ valid_command "LEFT".
Proof. rewrite valid_command_iff. intros [H | [H | [H | H]]]; discriminate H. Qed.

(** C7, as the specification words it, fails: a value outside the enumeration
    is not treated as STOP. *)
Lemma send_command_not_fail_closed :
  ¬ valid_command "LEFT" ∧ send_command "LEFT" ≠ send_command "STOP".
Proof. split; [exact left_not_valid | discriminate]. Qed.

(** C7 (amended): on a value outside the enumeration no branch of the
    dispatch is taken: nothing is sent, neither motor gets a setpoint. *)
Theorem send_command_outside (cmd : string) :
  ¬ valid_command cmd →
  send_command cmd = [] ∧ velocity_pair (send_command cmd) = None.
Proof.
  intros Hout. rewrite valid_command_iff in Hout.
  assert (send_command cmd = []) as ->; [| done].
  unfold send_command.
  destruct (String.eqb_spec cmd "FORWARD") as [-> | _]; [tauto |].
  destruct (String.eqb_spec cmd "REVERSE") as [-> | _]; [tauto |].
  destruct (String.eqb_spec cmd "TURN") as [-> | _]; [tauto |].
  destruct (String.eqb_spec cmd "STOP") as [-> | _]; [tauto |].
  reflexivity.
Qed.

Lemma send_command_outside_witness :
  send_command "LEFT" = [] ∧ velocity_pair (send_command "LEFT") = None.
Proof. apply (send_command_outside "LEFT"). exact left_not_valid. Defined.

(** ** The loop *)

(** An exception leaves [current_command] as the frame found it. *)
Lemma interpret_gesture_Raise lm_list (c c' : string) (e : exn) :
  interpret_gesture lm_list c = (Raise e, c') → c' = c.
Proof.
  unfold interpret_gesture.
  destruct (truthy lm_list); [| discriminate].
  destruct (extract_fingers lm_list); [discriminate | congruence].
Qed.

(** The three ways through the body of the loop. *)
Lemma iteration_cases (inp : capture) (current_command : string) :
  (inp = ReadFailed ∧ iteration inp current_command = (current_command, [], Continue))
  ∨ (∃ mh key e,
        inp = Captured mh key
        ∧ interpret_gesture (build_lm_list mh) current_command = (Raise e, current_command)
        ∧ iteration inp current_command = (current_command, [], Uncaught e))
  ∨ (∃ mh key c,
        inp = Captured mh key
        ∧ interpret_gesture (build_lm_list mh) current_command = (Ok (), c)
        ∧ iteration inp current_command =
          (c, send_command c ++ [WaitKey key], if quit_key key then Break else Continue)).
Proof.
  destruct inp as [| mh key]; [by left | right].
  unfold iteration.
  destruct (interpret_gesture (build_lm_list mh) current_command) as [[[] | e] c] eqn:Hg.
  - right. by exists mh, key, c.
  - left. pose proof (interpret_gesture_Raise _ _ _ _ Hg) as ->.
    by exists mh, key, e.
Qed.

Lemma main_loop_app (l1 l2 : list capture) (c : string) :
  main_loop (l1 ++ l2) c =
  match ended (main_loop l1 c) with
  | Looping =>
      let r := main_loop l2 (latch (main_loop l1 c)) in
      Run (latch r) (trace (main_loop l1 c) ++ trace r) (ended r)
  | _ => main_loop l1 c
  end.
Proof.
  revert c. induction l1 as [| inp l1 IH]; intros c.
  - cbn. destruct (main_loop l2 c) as [c2 tr2 st2]. reflexivity.
  - cbn [app main_loop].
    destruct (iteration inp c) as [[c' evs] [| | e]]; [| done | done].
    rewrite IH.
    destruct (ended (main_loop l1 c')) eqn:Hend; cbn [ended latch trace];
      by rewrite ?Hend, ?app_assoc.
Qed.

(** The latch after one more frame is the latch that [iteration] returns. *)
Lemma main_loop_snoc (inputs : list capture) (inp : capture) (c : string) :
  ended (main_loop inputs c) = Looping →
  latch (main_loop (inputs ++ [inp]) c)
  = (iteration inp (latch (main_loop inputs c))).1.1.
Proof.
  intros Hloop. rewrite main_loop_app, Hloop. cbn.
  by destruct (iteration inp _) as [[c' evs] [| | e]].
Qed.

Lemma classify_valid (fingers : list Z) (c : string) :
  valid_command c → valid_command (classify fingers c).
Proof.
  intros Hc. rewrite classify_count.
  repeat (case_match; [apply valid_command_iff; tauto |]). exact Hc.
Qed.

Lemma interpret_gesture_valid lm_list (c : string) :
  valid_command c → valid_command (interpret_gesture lm_list c).2.
Proof.
  intros Hc. unfold interpret_gesture.
  destruct (truthy lm_list); [| done].
  destruct (extract_fingers lm_list); [| done].
  by apply classify_valid.
Qed.

Lemma iteration_valid (inp : capture) (c : string) :
  valid_command c → valid_command (iteration inp c).1.1.
Proof.
  intros Hc. destruct inp as [| mh key]; [done |]. unfold iteration.
  pose proof (interpret_gesture_valid (build_lm_list mh) c Hc) as Hv.
  by destruct (interpret_gesture (build_lm_list mh) c) as [[[] | e] c'].
Qed.

Lemma main_loop_valid (inputs : list capture) (c : string) :
  valid_command c → valid_command (latch (main_loop inputs c)).
Proof.
  revert c. induction inputs as [| inp inputs IH]; intros c Hc; [done |].
  cbn [main_loop]. pose proof (iteration_valid inp c Hc) as Hv.
  destruct (iteration inp c) as [[c' evs] [| | e]]; cbn in *; auto.
Qed.

(** A frame without a recognized gesture leaves the latch as it is. *)
Lemma iteration_preserves (inp : capture) (c : string) :
  ¬ recognized_frame inp → (iteration inp c).1.1 = c.
Proof.
  intros Hnot.
  destruct (iteration_cases inp c)
    as [[_ ->] | [(mh & key & e & _ & _ & ->) | (mh & key & c' & -> & Hg & ->)]];
    [done | done |].
  cbn. unfold interpret_gesture in Hg.
  destruct (truthy (build_lm_list mh)); [| congruence].
  destruct (extract_fingers (build_lm_list mh)) as [fingers |] eqn:Hok; [| discriminate Hg].
  destruct (extract_fingers_shape _ _ Hok) as (_ & state & Hlen & ->).
  injection Hg as <-.
  pose proof (count_true_le state) as Hle. rewrite Hlen in Hle.
  destruct (decide (count_true state = 3 ∨ count_true state = 4)%nat) as [Hn | Hn].
  - by apply classify_unrecognized.
  - exfalso. apply Hnot. exists mh, key, state. repeat split; try done.
    rewrite !elem_of_cons. lia.
Qed.

Lemma iteration_changes (inp : capture) (c : string) :
  (iteration inp c).1.1 ≠ c → recognized_frame inp.
Proof.
  intros Hne.
  destruct (iteration_cases inp c)
    as [[_ Hit] | [(mh & key & e & _ & _ & Hit) | (mh & key & c' & -> & Hg & Hit)]];
    [by rewrite Hit in Hne | by rewrite Hit in Hne |].
  rewrite Hit in Hne. cbn in Hne. unfold interpret_gesture in Hg.
  destruct (truthy (build_lm_list mh)); [| congruence].
  destruct (extract_fingers (build_lm_list mh)) as [fingers |] eqn:Hok; [| discriminate Hg].
  destruct (extract_fingers_shape _ _ Hok) as (_ & state & Hlen & ->).
  injection Hg as <-.
  pose proof (count_true_le state) as Hle. rewrite Hlen in Hle.
  exists mh, key, state. repeat split; try done.
  destruct (decide (count_true state = 3 ∨ count_true state = 4)%nat) as [Hn | Hn].
  - by rewrite classify_unrecognized in Hne.
  - rewrite !elem_of_cons. lia.
Qed.

(** C8: the latch is STOP before the first frame; after any sequence of
    frames it is one of FORWARD, REVERSE, TURN, STOP, and each of the four is
    reached; a frame changes it only when zero, one, two or five fingers are
    extended, and every other iteration leaves it as it was. *)
Theorem latch_invariant :
  initial_command = "STOP"
  ∧ (∀ inputs, valid_command (latch (script inputs)))
  ∧ (∀ c, valid_command c → ∃ inputs, latch (script inputs) = c)
  ∧ (∀ inputs inp,
       ended (script inputs) = Looping →
       latch (script (inputs ++ [inp])) ≠ latch (script inputs) →
       recognized_frame inp)
  ∧ (∀ inputs inp,
       ¬ recognized_frame inp →
       latch (script (inputs ++ [inp])) = latch (script inputs)).
Proof.
  split; [reflexivity |]. split; [| split; [| split]].
  - intros inputs. apply main_loop_valid, valid_command_iff. auto.
  - intros c [-> | [-> | [-> | ->]]]%valid_command_iff.
    + by exists [Captured (Some [fist]) 0].
    + by exists [Captured (Some [<[8%nat := (0, -1)]> fist]) 0].
    + by exists [Captured (Some [two_fingers]) 0].
    + by exists [].
  - intros inputs inp Hloop. unfold script in *.
    rewrite main_loop_snoc by done. apply iteration_changes.
  - intros inputs inp Hnot. unfold script.
    destruct (ended (main_loop inputs initial_command)) eqn:Hend.
    + rewrite main_loop_snoc by done. by apply iteration_preserves.
    + by rewrite main_loop_app, Hend.
    + by rewrite main_loop_app, Hend.
Qed.

(** ** Leaving the loop *)

Lemma after_quit_app_None (pre tr : list event) :
  after_quit pre = None → after_quit (pre ++ tr) = after_quit tr.
Proof.
  induction pre as [| e pre IH]; intros Hpre; [reflexivity |].
  destruct e as [m v | key | | |]; cbn in *; auto.
  destruct (quit_key key); [discriminate Hpre | auto].
Qed.

Lemma after_quit_send_command (c : string) : after_quit (send_command c) = None.
Proof. unfold send_command. by repeat case_match. Qed.

Lemma after_quit_iteration (c : string) (key : Z) (tr : list event) :
  after_quit ((send_command c ++ [WaitKey key]) ++ tr)
  = if quit_key key then Some tr else after_quit tr.
Proof.
  rewrite <- app_assoc.
  by rewrite after_quit_app_None by apply after_quit_send_command.
Qed.

(** A run that leaves the loop: the last frame sends the setpoints of the
    latched command, then reads the quitting key, then cleans up. *)
Lemma main_loop_exit (inputs : list capture) (c : string) :
  ended (main_loop inputs c) = Exited →
  ∃ pre key,
    quit_key key = true
    ∧ after_quit pre = None
    ∧ trace (main_loop inputs c)
      = pre ++ (send_command (latch (main_loop inputs c)) ++ [WaitKey key]) ++ clean_up.
Proof.
  revert c. induction inputs as [| inp inputs IH]; intros c; [discriminate |].
  cbn [main_loop].
  destruct (iteration_cases inp c)
    as [[_ ->] | [(mh & key & e & _ & _ & ->) | (mh & key & c' & _ & _ & ->)]].
  - cbn. apply IH.
  - discriminate.
  - destruct (quit_key key) eqn:Hkey; cbn [ended latch trace].
    + intros _. by exists [], key.
    + intros (pre & key' & Hq & Hpre & ->)%IH.
      exists ((send_command c' ++ [WaitKey key]) ++ pre), key'.
      split; [done |]. split; [| by rewrite <- !app_assoc].
      by rewrite after_quit_iteration, Hkey.
Qed.

(** C6, as the specification words it, fails: a fist is shown, [q] is
    pressed, and the run ends with the FORWARD setpoints as the last ones
    sent; nothing goes to the motors between the keypress and the release. *)
Lemma quit_sends_no_stop :
  ended (script quit_while_forward) = Exited
  ∧ latch (script quit_while_forward) = "FORWARD"
  ∧ ¬ stop_on_exit (trace (script quit_while_forward)).
Proof.
  split; [reflexivity |]. split; [reflexivity |].
  intros (evs & Hafter & Hleft & _).
  vm_compute in Hafter. injection Hafter as <-.
  cbn in Hleft. by apply elem_of_nil in Hleft.
Qed.

(** C6 (amended): in a run that ends on the quitting key, the setpoints of
    the latched command are sent just before the key is read, and the events
    after the key are the clean-up alone (release of the capture, the
    windows, the simulator session): no STOP goes out on the way. *)
Theorem exit_trace (inputs : list capture) :
  ended (script inputs) = Exited →
  ∃ pre key,
    quit_key key = true
    ∧ trace (script inputs)
      = pre ++ (send_command (latch (script inputs)) ++ [WaitKey key]) ++ clean_up
    ∧ after_quit (trace (script inputs)) = Some clean_up
    ∧ ¬ stop_on_exit (trace (script inputs)).
Proof.
  intros (pre & key & Hq & Hpre & Htr)%main_loop_exit.
  assert (after_quit (trace (script inputs)) = Some clean_up) as Hafter.
  { unfold script. rewrite Htr.
    rewrite after_quit_app_None by done.
    by rewrite after_quit_iteration, Hq. }
  exists pre, key. split; [done |]. split; [done |]. split; [done |].
  intros (evs & Hevs & Hleft & _).
  rewrite Hafter in Hevs. injection Hevs as <-.
  cbn in Hleft. by apply elem_of_nil in Hleft.
Qed.

Lemma exit_trace_witness :
  ∃ pre key,
    quit_key key = true
    ∧ trace (script quit_while_forward)
      = pre ++ (send_command (latch (script quit_while_forward)) ++ [WaitKey key])
            ++ clean_up
    ∧ after_quit (trace (script quit_while_forward)) = Some clean_up
    ∧ ¬ stop_on_exit (trace (script quit_while_forward)).
Proof. apply (exit_trace quit_while_forward). reflexivity. Defined.

(** ** Only the first 21 entries are read *)

Lemma truthy_take {A : Type} (l : list A) : truthy (take 21 l) = truthy l.
Proof. by destruct l. Qed.

Lemma extract_fingers_agree (lm_list1 lm_list2 : list lm_entry) :
  take 21 lm_list1 = take 21 lm_list2 →
  extract_fingers lm_list1 = extract_fingers lm_list2.
Proof.
  intros Htake.
  by rewrite <- (extract_fingers_take lm_list1), Htake, extract_fingers_take.
Qed.

Lemma interpret_gesture_agree (lm_list1 lm_list2 : list lm_entry) (c : string) :
  take 21 lm_list1 = take 21 lm_list2 →
  interpret_gesture lm_list1 c = interpret_gesture lm_list2 c.
Proof.
  intros Htake. unfold interpret_gesture.
  rewrite (extract_fingers_agree _ _ Htake).
  by rewrite <- (truthy_take lm_list1), Htake, truthy_take.
Qed.

(** C9: two landmark lists that agree on their first 21 entries give the same
    finger states and the same command, whatever follows those entries. *)
Theorem first_hand_only (lm_list1 lm_list2 : list lm_entry) (previous : string) :
  take 21 lm_list1 = take 21 lm_list2 →
  extract_fingers lm_list1 = extract_fingers lm_list2
  ∧ interpret_gesture lm_list1 previous = interpret_gesture lm_list2 previous.
Proof.
  intros Htake. split.
  - by apply extract_fingers_agree.
  - by apply interpret_gesture_agree.
Qed.

Lemma first_hand_only_witness :
  take 21 (build_lm_list (Some [two_fingers; fist]))
  = take 21 (build_lm_list (Some [two_fingers; open_hand; long_hand]))
  ∧ extract_fingers (build_lm_list (Some [two_fingers; fist]))
    = extract_fingers (build_lm_list (Some [two_fingers; open_hand; long_hand]))
  ∧ interpret_gesture (build_lm_list (Some [two_fingers; fist])) "STOP"
    = interpret_gesture (build_lm_list (Some [two_fingers; open_hand; long_hand])) "STOP".
Proof.
  split; [reflexivity |].
  apply (first_hand_only (build_lm_list (Some [two_fingers; fist]))
           (build_lm_list (Some [two_fingers; open_hand; long_hand])) "STOP").
  reflexivity.
Defined.

Lemma build_lm_list_cons (hand : hand_landmark) (others : list hand_landmark) :
  build_lm_list (Some (hand :: others))
  = hand_entries hand ++ build_lm_list (Some others).
Proof.
  assert (∀ hands acc,
            foldl (λ lm_list h, lm_list ++ hand_entries h) acc hands
            = acc ++ foldl (λ lm_list h, lm_list ++ hand_entries h) [] hands) as Hfold.
  { induction hands as [| h hands IH]; intros acc; cbn.
    - by rewrite app_nil_r.
    - rewrite IH, (IH (hand_entries h)). by rewrite app_assoc. }
  cbn. rewrite Hfold. f_equal. by destruct others.
Qed.

(** On frames: with a first hand of 21 landmarks, the other hands of the
    frame have no effect on the iteration. *)
Lemma first_hand_only_frames (hand : hand_landmark)
    (others1 others2 : list hand_landmark) (key : Z) (previous : string) :
  length hand = 21%nat →
  iteration (Captured (Some (hand :: others1)) key) previous
  = iteration (Captured (Some (hand :: others2)) key) previous.
Proof.
  intros Hlen. unfold iteration.
  assert (∀ others, take 21 (build_lm_list (Some (hand :: others))) = hand_entries hand)
    as Htake.
  { intros others. rewrite build_lm_list_cons.
    apply take_app_length'. unfold hand_entries. by rewrite length_imap. }
  rewrite (interpret_gesture_agree (build_lm_list (Some (hand :: others1)))
             (build_lm_list (Some (hand :: others2)))); [done |].
  by rewrite !Htake.
Qed.

(** ** Lists of other than 21 landmarks *)

(** C5, as the specification words it, fails: a hand reported with 22
    landmarks is not rejected; its first 21 are read and the latch moves. *)
Lemma long_hand_accepted :
  length (hand_entries long_hand) ≠ 21%nat
  ∧ extract_fingers (hand_entries long_hand) = Ok [0; 0; 0; 0; 0]
  ∧ iteration (Captured (Some [long_hand]) 0) "STOP"
    = ("FORWARD", send_command "FORWARD" ++ [WaitKey 0], Continue).
Proof. split; [discriminate |]. split; reflexivity. Qed.

(** C5 (amended): a landmark list of some other length than 21 is treated
    in one of three ways.  Empty, it is the frame without a hand and the
    latch holds.  With 1 to 20 entries, the extractor raises [IndexError],
    its only error, and the latch is as the frame found it.  With more than
    21, nothing is raised: the extractor reads the first 21 entries. *)
Theorem malformed_observation (lm_list : list lm_entry) (previous : string) :
  length lm_list ≠ 21%nat →
  (lm_list = [] ∧ interpret_gesture lm_list previous = (Ok (), previous))
  ∨ ((0 < length lm_list < 21)%nat
     ∧ extract_fingers lm_list = Raise IndexError
     ∧ interpret_gesture lm_list previous = (Raise IndexError, previous))
  ∨ ((21 < length lm_list)%nat
     ∧ extract_fingers lm_list = extract_fingers (take 21 lm_list)
     ∧ ∃ state, length state = 5%nat
                ∧ extract_fingers lm_list = Ok (fingers_of_state state)
                ∧ interpret_gesture lm_list previous
                  = (Ok (), classify (fingers_of_state state) previous)).
Proof.
  intros Hlen.
  destruct lm_list as [| e lm_list]; [by left | right].
  destruct (decide (length (e :: lm_list) < 21)%nat) as [Hshort | Hlong].
  - left. pose proof (extract_fingers_short _ Hshort) as Hraise.
    split; [cbn in Hshort |- *; lia |]. split; [done |].
    unfold interpret_gesture. by rewrite Hraise.
  - right. split; [lia |]. split; [by rewrite extract_fingers_take |].
    destruct (extract_fingers_long (e :: lm_list)) as (state & Hst & Hok); [lia |].
    exists state. split; [done |]. split; [done |].
    by apply interpret_gesture_Ok.
Qed.

Lemma malformed_observation_witness :
  (hand_entries short_hand = []
   ∧ interpret_gesture (hand_entries short_hand) "TURN" = (Ok (), "TURN"))
  ∨ ((0 < length (hand_entries short_hand) < 21)%nat
     ∧ extract_fingers (hand_entries short_hand) = Raise IndexError
     ∧ interpret_gesture (hand_entries short_hand) "TURN" = (Raise IndexError, "TURN"))
  ∨ ((21 < length (hand_entries short_hand))%nat
     ∧ extract_fingers (hand_entries short_hand)
       = extract_fingers (take 21 (hand_entries short_hand))
     ∧ ∃ state, length state = 5%nat
                ∧ extract_fingers (hand_entries short_hand) = Ok (fingers_of_state state)
                ∧ interpret_gesture (hand_entries short_hand) "TURN"
                  = (Ok (), classify (fingers_of_state state) "TURN")).
Proof. apply (malformed_observation (hand_entries short_hand) "TURN"). discriminate. Defined.

(** The failing frame in the loop: nothing is sent, the latch is not
    assigned, and the exception ends the run. *)
Lemma short_frame_raises (mh : option (list hand_landmark)) (key : Z) (previous : string) :
  (0 < length (build_lm_list mh) < 21)%nat →
  iteration (Captured mh key) previous = (previous, [], Uncaught IndexError).
Proof.
  intros [Hpos Hshort]. unfold iteration, interpret_gesture.
  rewrite (extract_fingers_short _ Hshort).
  destruct (build_lm_list mh); [cbn in Hpos; lia | reflexivity].
Qed.

(** ** End-to-end scenarios *)

Example scenario_fist :
  iteration (Captured (Some [fist]) (-1)) "STOP"
  = ("FORWARD",
     [SetJointTargetVelocity left_motor 2.0; SetJointTargetVelocity right_motor 2.0;
      WaitKey (-1)],
     Continue).
Proof. reflexivity. Qed.

Example scenario_two_fingers :
  iteration (Captured (Some [two_fingers]) (-1)) "STOP"
  = ("TURN",
     [SetJointTargetVelocity left_motor (-1.0); SetJointTargetVelocity right_motor 1.0;
      WaitKey (-1)],
     Continue).
Proof. reflexivity. Qed.

Example scenario_open_hand :
  iteration (Captured (Some [open_hand]) (-1)) "FORWARD"
  = ("STOP",
     [SetJointTargetVelocity left_motor 0.0; SetJointTargetVelocity right_motor 0.0;
      WaitKey (-1)],
     Continue).
Proof. reflexivity. Qed.

Example scenario_three_fingers_after_forward :
  iteration (Captured (Some [three_fingers]) (-1)) "FORWARD"
  = ("FORWARD",
     [SetJointTargetVelocity left_motor 2.0; SetJointTargetVelocity right_motor 2.0;
      WaitKey (-1)],
     Continue).
Proof. reflexivity. Qed.

Example scenario_no_hand_after_turn :
  iteration (Captured None (-1)) "TURN"
  = ("TURN",
     [SetJointTargetVelocity left_motor (-1.0); SetJointTargetVelocity right_motor 1.0;
      WaitKey (-1)],
     Continue).
Proof. reflexivity. Qed.

Example scenario_short_hand_crashes :
  script [Captured (Some [fist]) (-1); Captured (Some [short_hand]) ord_q]
  = Run "FORWARD"
      [SetJointTargetVelocity left_motor 2.0; SetJointTargetVelocity right_motor 2.0;
       WaitKey (-1)]
      (Crashed IndexError).
Proof. reflexivity. Qed.

(** * Further properties of the script *)

(** ** The extractor (lines 62-70) *)

(** The closed form of the extractor, from the ten positions it reads. *)
Lemma extract_fingers_lookup (lm_list : list lm_entry)
    (j0 t0 j1 t1 j2 t2 j3 t3 j4 t4 : lm_entry) :
  lm_list !! 3%nat = Some j0 → lm_list !! 4%nat = Some t0 →
  lm_list !! 6%nat = Some j1 → lm_list !! 8%nat = Some t1 →
  lm_list !! 10%nat = Some j2 → lm_list !! 12%nat = Some t2 →
  lm_list !! 14%nat = Some j3 → lm_list !! 16%nat = Some t3 →
  lm_list !! 18%nat = Some j4 → lm_list !! 20%nat = Some t4 →
  extract_fingers lm_list =
  Ok (fingers_of_state
        [bool_decide (item1 t0 > item1 j0);
         bool_decide (item2 t1 < item2 j1);
         bool_decide (item2 t2 < item2 j2);
         bool_decide (item2 t3 < item2 j3);
         bool_decide (item2 t4 < item2 j4)]).
Proof.
  intros H3 H4 H6 H8 H10 H12 H14 H16 H18 H20.
  rewrite extract_fingers_unfold, thumb_unfold, !finger_unfold by lia.
  rewrite !getitem_nat. cbn [Nat.mul Nat.add].
  by rewrite H3, H4, H6, H8, H10, H12, H14, H16, H18, H20.
Qed.

Lemma lookup_long (lm_list : list lm_entry) (i : nat) :
  (21 ≤ length lm_list)%nat → (i < 21)%nat → ∃ e, lm_list !! i = Some e.
Proof. intros Hlen Hi. apply lookup_lt_is_Some. lia. Qed.

(** X1: the extractor succeeds exactly on the lists of 21 entries or more;
    what it returns has five entries, each 0 or 1, so the finger count lies
    between 0 and 5. *)
Theorem extract_fingers_total (lm_list : list lm_entry) :
  ((21 ≤ length lm_list)%nat ↔ ∃ fingers, extract_fingers lm_list = Ok fingers)
  ∧ ∀ fingers,
      extract_fingers lm_list = Ok fingers →
      length fingers = 5%nat
      ∧ Forall (λ f, f = 0 ∨ f = 1) fingers
      ∧ 0 ≤ count fingers 1 ≤ 5.
Proof.
  split.
  - split.
    + intros (state & _ & Hok)%extract_fingers_long. eauto.
    + intros (fingers & Hok). by destruct (extract_fingers_shape _ _ Hok).
  - intros fingers (_ & state & Hlen & ->)%extract_fingers_shape.
    split; [| split].
    + unfold fingers_of_state. by rewrite length_fmap.
    + unfold fingers_of_state. apply Forall_fmap, Forall_forall.
      intros [] _; cbn; auto.
    + rewrite count_fingers_of_state.
      pose proof (count_true_le state). lia.
Qed.

(** X2: the extractor reads the x of positions 3 and 4 and the y of
    positions 6, 8, ..., 20 and nothing else: two lists that agree there
    give the same result, whatever their ids, their other coordinates and
    their other entries. *)
Theorem extract_fingers_reads (lm_list1 lm_list2 : list lm_entry) :
  x_at lm_list1 3 = x_at lm_list2 3 →
  x_at lm_list1 4 = x_at lm_list2 4 →
  (∀ k, k ∈ finger_positions → y_at lm_list1 k = y_at lm_list2 k) →
  extract_fingers lm_list1 = extract_fingers lm_list2.
Proof.
  intros Hx3 Hx4 Hy.
  assert (∀ k, k ∈ finger_positions → y_at lm_list1 k = y_at lm_list2 k) as Hy' by done.
  unfold finger_positions in Hy. unfold x_at, y_at in Hx3, Hx4, Hy.
  destruct (decide (length lm_list1 < 21)%nat) as [Hshort | Hlong].
  - rewrite (extract_fingers_short _ Hshort).
    assert (lm_list1 !! 20%nat = None) as Hnone by (apply lookup_ge_None; lia).
    pose proof (Hy 20%nat) as H20. rewrite Hnone in H20.
    assert (lm_list2 !! 20%nat = None) as Hnone2.
    { destruct (lm_list2 !! 20%nat); [| done].
      discriminate H20. rewrite !elem_of_cons. tauto. }
    apply lookup_ge_None in Hnone2.
    symmetry. apply extract_fingers_short. lia.
  - assert (21 ≤ length lm_list1)%nat as Hlen1 by lia.
    assert (21 ≤ length lm_list2)%nat as Hlen2.
    { destruct (lookup_long lm_list1 20 Hlen1) as [e He]; [lia |].
      pose proof (Hy 20%nat) as H20. rewrite He in H20.
      destruct (lm_list2 !! 20%nat) eqn:He2.
      - apply lookup_lt_Some in He2. lia.
      - discriminate H20. rewrite !elem_of_cons. tauto. }
    destruct (lookup_long lm_list1 3 Hlen1) as [a3 Ha3]; [lia |].
    destruct (lookup_long lm_list1 4 Hlen1) as [a4 Ha4]; [lia |].
    destruct (lookup_long lm_list1 6 Hlen1) as [a6 Ha6]; [lia |].
    destruct (lookup_long lm_list1 8 Hlen1) as [a8 Ha8]; [lia |].
    destruct (lookup_long lm_list1 10 Hlen1) as [a10 Ha10]; [lia |].
    destruct (lookup_long lm_list1 12 Hlen1) as [a12 Ha12]; [lia |].
    destruct (lookup_long lm_list1 14 Hlen1) as [a14 Ha14]; [lia |].
    destruct (lookup_long lm_list1 16 Hlen1) as [a16 Ha16]; [lia |].
    destruct (lookup_long lm_list1 18 Hlen1) as [a18 Ha18]; [lia |].
    destruct (lookup_long lm_list1 20 Hlen1) as [a20 Ha20]; [lia |].
    destruct (lookup_long lm_list2 3 Hlen2) as [b3 Hb3]; [lia |].
    destruct (lookup_long lm_list2 4 Hlen2) as [b4 Hb4]; [lia |].
    destruct (lookup_long lm_list2 6 Hlen2) as [b6 Hb6]; [lia |].
    destruct (lookup_long lm_list2 8 Hlen2) as [b8 Hb8]; [lia |].
    destruct (lookup_long lm_list2 10 Hlen2) as [b10 Hb10]; [lia |].
    destruct (lookup_long lm_list2 12 Hlen2) as [b12 Hb12]; [lia |].
    destruct (lookup_long lm_list2 14 Hlen2) as [b14 Hb14]; [lia |].
    destruct (lookup_long lm_list2 16 Hlen2) as [b16 Hb16]; [lia |].
    destruct (lookup_long lm_list2 18 Hlen2) as [b18 Hb18]; [lia |].
    destruct (lookup_long lm_list2 20 Hlen2) as [b20 Hb20]; [lia |].
    rewrite (extract_fingers_lookup lm_list1 a3 a4 a6 a8 a10 a12 a14 a16 a18 a20) by done.
    rewrite (extract_fingers_lookup lm_list2 b3 b4 b6 b8 b10 b12 b14 b16 b18 b20) by done.
    rewrite Ha3, Hb3 in Hx3. rewrite Ha4, Hb4 in Hx4.
    injection Hx3 as ->. injection Hx4 as ->.
    pose proof (Hy 6%nat) as H6. rewrite Ha6, Hb6 in H6.
    pose proof (Hy 8%nat) as H8. rewrite Ha8, Hb8 in H8.
    pose proof (Hy 10%nat) as H10. rewrite Ha10, Hb10 in H10.
    pose proof (Hy 12%nat) as H12. rewrite Ha12, Hb12 in H12.
    pose proof (Hy 14%nat) as H14. rewrite Ha14, Hb14 in H14.
    pose proof (Hy 16%nat) as H16. rewrite Ha16, Hb16 in H16.
    pose proof (Hy 18%nat) as H18. rewrite Ha18, Hb18 in H18.
    pose proof (Hy 20%nat) as H20. rewrite Ha20, Hb20 in H20.
    rewrite !elem_of_cons in H6, H8, H10, H12, H14, H16, H18, H20.
    cbn in H6, H8, H10, H12, H14, H16, H18, H20.
    assert (item2 a6 = item2 b6) as -> by (injection H6; [done | tauto]).
    assert (item2 a8 = item2 b8) as -> by (injection H8; [done | tauto]).
    assert (item2 a10 = item2 b10) as -> by (injection H10; [done | tauto]).
    assert (item2 a12 = item2 b12) as -> by (injection H12; [done | tauto]).
    assert (item2 a14 = item2 b14) as -> by (injection H14; [done | tauto]).
    assert (item2 a16 = item2 b16) as -> by (injection H16; [done | tauto]).
    assert (item2 a18 = item2 b18) as -> by (injection H18; [done | tauto]).
    assert (item2 a20 = item2 b20) as -> by (injection H20; [done | tauto]).
    reflexivity.
Qed.

Lemma extract_fingers_reads_witness :
  extract_fingers (hand_entries two_fingers)
  = extract_fingers (<[0%nat := (99, 5, 5)]> (hand_entries two_fingers)
                     ++ hand_entries open_hand).
Proof.
  apply (extract_fingers_reads (hand_entries two_fingers)
           (<[0%nat := (99, 5, 5)]> (hand_entries two_fingers) ++ hand_entries open_hand));
    [reflexivity | reflexivity |].
  intros k Hk. unfold finger_positions in Hk. rewrite !elem_of_cons in Hk.
  destruct Hk as [-> | [-> | [-> | [-> | [-> | [-> | [-> | [-> | []%elem_of_nil]]]]]]]];
    reflexivity.
Defined.

(** The ten entries that the extractor reads in a list of 21 or more. *)
Lemma ten_lookups (lm_list : list lm_entry) :
  (21 ≤ length lm_list)%nat →
  ∃ j0 t0 j1 t1 j2 t2 j3 t3 j4 t4,
    lm_list !! 3%nat = Some j0 ∧ lm_list !! 4%nat = Some t0
    ∧ lm_list !! 6%nat = Some j1 ∧ lm_list !! 8%nat = Some t1
    ∧ lm_list !! 10%nat = Some j2 ∧ lm_list !! 12%nat = Some t2
    ∧ lm_list !! 14%nat = Some j3 ∧ lm_list !! 16%nat = Some t3
    ∧ lm_list !! 18%nat = Some j4 ∧ lm_list !! 20%nat = Some t4.
Proof.
  intros Hlen.
  destruct (lookup_long lm_list 3 Hlen) as [j0 ?]; [lia |].
  destruct (lookup_long lm_list 4 Hlen) as [t0 ?]; [lia |].
  destruct (lookup_long lm_list 6 Hlen) as [j1 ?]; [lia |].
  destruct (lookup_long lm_list 8 Hlen) as [t1 ?]; [lia |].
  destruct (lookup_long lm_list 10 Hlen) as [j2 ?]; [lia |].
  destruct (lookup_long lm_list 12 Hlen) as [t2 ?]; [lia |].
  destruct (lookup_long lm_list 14 Hlen) as [j3 ?]; [lia |].
  destruct (lookup_long lm_list 16 Hlen) as [t3 ?]; [lia |].
  destruct (lookup_long lm_list 18 Hlen) as [j4 ?]; [lia |].
  destruct (lookup_long lm_list 20 Hlen) as [t4 ?]; [lia |].
  by exists j0, t0, j1, t1, j2, t2, j3, t3, j4, t4.
Qed.

Lemma extract_fingers_fmap (f : lm_entry → lm_entry) (lm_list : list lm_entry)
    (j0 t0 j1 t1 j2 t2 j3 t3 j4 t4 : lm_entry) :
  lm_list !! 3%nat = Some j0 → lm_list !! 4%nat = Some t0 →
  lm_list !! 6%nat = Some j1 → lm_list !! 8%nat = Some t1 →
  lm_list !! 10%nat = Some j2 → lm_list !! 12%nat = Some t2 →
  lm_list !! 14%nat = Some j3 → lm_list !! 16%nat = Some t3 →
  lm_list !! 18%nat = Some j4 → lm_list !! 20%nat = Some t4 →
  extract_fingers (f <$> lm_list) =
  Ok (fingers_of_state
        [bool_decide (item1 (f t0) > item1 (f j0));
         bool_decide (item2 (f t1) < item2 (f j1));
         bool_decide (item2 (f t2) < item2 (f j2));
         bool_decide (item2 (f t3) < item2 (f j3));
         bool_decide (item2 (f t4) < item2 (f j4))]).
Proof.
  intros H3 H4 H6 H8 H10 H12 H14 H16 H18 H20.
  apply extract_fingers_lookup; rewrite list_lookup_fmap;
    by rewrite ?H3, ?H4, ?H6, ?H8, ?H10, ?H12, ?H14, ?H16, ?H18, ?H20.
Qed.



(** X4: the thumb rule depends on the orientation of the image.  On the
    frame flipped left to right the four other fingers are read as before,
    and the thumb is read the other way round whenever landmarks 3 and 4
    differ in x (with equal x it is read as curled on both). *)
Theorem extract_fingers_mirror (w : Z) (lm_list : list lm_entry) (fingers : list Z) :
  extract_fingers lm_list = Ok fingers →
  ∃ t t' rest,
    fingers = t :: rest
    ∧ extract_fingers (mirror w <$> lm_list) = Ok (t' :: rest)
    ∧ (x_at lm_list 4 = x_at lm_list 3 → t = 0 ∧ t' = 0)
    ∧ (x_at lm_list 4 ≠ x_at lm_list 3 → t + t' = 1).
Proof.
  intros Hok.
  destruct (extract_fingers_shape _ _ Hok) as (Hlen & _).
  destruct (ten_lookups lm_list Hlen)
    as (j0&t0&j1&t1&j2&t2&j3&t3&j4&t4&H3&H4&H6&H8&H10&H12&H14&H16&H18&H20).
  rewrite (extract_fingers_lookup _ _ _ _ _ _ _ _ _ _ _
             H3 H4 H6 H8 H10 H12 H14 H16 H18 H20) in Hok.
  injection Hok as <-.
  rewrite (extract_fingers_fmap _ _ _ _ _ _ _ _ _ _ _ _
             H3 H4 H6 H8 H10 H12 H14 H16 H18 H20).
  unfold x_at. rewrite H3, H4.
  unfold mirror, item1, item2. cbn [fst snd fingers_of_state fmap list_fmap].
  eexists _, _, _. split; [reflexivity |]. split; [reflexivity |].
  split.
  - intros Heq. cbn in Heq. injection Heq as Heq. unfold item1 in Heq.
    rewrite !bool_decide_eq_false_2 by lia. done.
  - intros Hne.
    assert (t0.1.2 ≠ j0.1.2) as Hne'
      by (intros Heq; apply Hne; cbn; unfold item1; by rewrite Heq).
    destruct (decide (t0.1.2 > j0.1.2)) as [Hgt | Hle].
    + rewrite (bool_decide_eq_true_2 _ Hgt), bool_decide_eq_false_2 by lia. done.
    + rewrite (bool_decide_eq_false_2 _ Hle), bool_decide_eq_true_2 by lia. done.
Qed.

Lemma extract_fingers_mirror_witness :
  ∃ t t' rest,
    [1; 1; 1; 1; 1] = t :: rest
    ∧ extract_fingers (mirror 640 <$> hand_entries open_hand) = Ok (t' :: rest)
    ∧ (x_at (hand_entries open_hand) 4 = x_at (hand_entries open_hand) 3 → t = 0 ∧ t' = 0)
    ∧ (x_at (hand_entries open_hand) 4 ≠ x_at (hand_entries open_hand) 3 → t + t' = 1).
Proof.
  apply (extract_fingers_mirror 640 (hand_entries open_hand) [1; 1; 1; 1; 1]).
  reflexivity.
Defined.

(** ** The landmark list (lines 52-58) *)

(** X5: the landmark list is the hands' landmarks one hand after the other,
    in the order of detection, and position [i] of the list holds landmark
    [i] of the first hand under the id [i]: this is what lets the extractor
    index the list by the tip ids. *)
Theorem build_lm_list_first (hand : hand_landmark) (others : list hand_landmark)
    (i : nat) (lm : Z * Z) :
  hand !! i = Some lm →
  build_lm_list (Some (hand :: others)) !! i = Some (Z.of_nat i, lm.1, lm.2)
  ∧ build_lm_list (Some (hand :: others)) = hand_entries hand ++ (others ≫= hand_entries)
  ∧ length (build_lm_list (Some (hand :: others)))
    = (length hand + sum_list (length <$> others))%nat.
Proof.
  intros Hi.
  assert (∀ hands, build_lm_list (Some hands) = hands ≫= hand_entries) as Hjoin.
  { induction hands as [| h hands IH]; [reflexivity |].
    by rewrite build_lm_list_cons, IH. }
  assert (∀ hands : list hand_landmark,
            length (hands ≫= hand_entries) = sum_list (length <$> hands)) as Hsum.
  { induction hands as [| h hands IH]; [reflexivity |].
    rewrite bind_cons, length_app, fmap_cons. cbn [sum_list].
    unfold hand_entries at 1. by rewrite length_imap, IH. }
  rewrite build_lm_list_cons, Hjoin. split; [| split; [done |]].
  - rewrite lookup_app_l.
    + unfold hand_entries. unfold hand_landmark in Hi. by rewrite list_lookup_imap, Hi.
    + unfold hand_entries. rewrite length_imap. by apply lookup_lt_Some in Hi.
  - rewrite length_app, Hsum. unfold hand_entries. by rewrite length_imap.
Qed.

Lemma build_lm_list_first_witness :
  build_lm_list (Some [open_hand; fist]) !! 8%nat = Some (8, (8, 12).1, (8, 12).2)
  ∧ build_lm_list (Some [open_hand; fist])
    = hand_entries open_hand ++ ([fist] ≫= hand_entries)
  ∧ length (build_lm_list (Some [open_hand; fist]))
    = (length open_hand + sum_list (length <$> [fist]))%nat.
Proof. apply (build_lm_list_first open_hand [fist] 8 (8, 12)). reflexivity. Defined.

(** ** The latch over several frames (lines 37-80) *)

Lemma classify_idem (fingers : list Z) (c : string) :
  classify fingers (classify fingers c) = classify fingers c.
Proof. rewrite !classify_count. by repeat case_match. Qed.

Lemma iteration_idem (inp : capture) (c c' : string) (evs : list event) :
  iteration inp c = (c', evs, Continue) → iteration inp c' = (c', evs, Continue).
Proof.
  destruct inp as [| mh key]; [by intros [= <- <-] |].
  unfold iteration, interpret_gesture.
  destruct (truthy (build_lm_list mh)).
  - destruct (extract_fingers (build_lm_list mh)) as [fingers |]; [| discriminate].
    destruct (quit_key key); [discriminate |].
    intros [= <- <-]. by rewrite classify_idem.
  - destruct (quit_key key); [discriminate |]. by intros [= <- <-].
Qed.

Lemma main_loop_settled (inp : capture) (c : string) (evs : list event) (n : nat) :
  iteration inp c = (c, evs, Continue) →
  main_loop (replicate n inp) c = Run c (mjoin (replicate n evs)) Looping.
Proof.
  intros Hit. induction n as [| n IH]; [reflexivity |].
  cbn [replicate main_loop]. by rewrite Hit, IH.
Qed.

(** X6: a frame held for several iterations settles the latch at once: after
    [n + 1] copies of a frame that lets the loop continue, the latch is what
    the first copy made it, every copy has sent the same events, and the
    loop is still running. *)
Theorem repeated_frame (inp : capture) (c : string) (n : nat) :
  (iteration inp c).2 = Continue →
  main_loop (replicate (S n) inp) c
  = Run (iteration inp c).1.1 (mjoin (replicate (S n) (iteration inp c).1.2)) Looping.
Proof.
  destruct (iteration inp c) as [[c' evs] ctl] eqn:Hit. cbn. intros ->.
  rewrite Hit.
  by rewrite (main_loop_settled inp c' evs n (iteration_idem _ _ _ _ Hit)).
Qed.

Lemma repeated_frame_witness :
  main_loop (replicate 3 (Captured (Some [two_fingers]) (-1))) "FORWARD"
  = Run (iteration (Captured (Some [two_fingers]) (-1)) "FORWARD").1.1
        (mjoin (replicate 3 (iteration (Captured (Some [two_fingers]) (-1)) "FORWARD").1.2))
        Looping.
Proof.
  apply (repeated_frame (Captured (Some [two_fingers]) (-1)) "FORWARD" 2). reflexivity.
Defined.

(** X7: no transition is forbidden: from any latched command, each of the
    four commands is reached by one frame, which also sends its setpoints. *)
Theorem one_step_reachable (c c' : string) :
  valid_command c' →
  ∃ hand, iteration (Captured (Some [hand]) (-1)) c
          = (c', send_command c' ++ [WaitKey (-1)], Continue).
Proof.
  intros [-> | [-> | [-> | ->]]]%valid_command_iff.
  - by exists fist.
  - by exists (<[8%nat := (0, -1)]> fist).
  - by exists two_fingers.
  - by exists open_hand.
Qed.

Lemma one_step_reachable_witness :
  ∃ hand, iteration (Captured (Some [hand]) (-1)) "FORWARD"
          = ("REVERSE", send_command "REVERSE" ++ [WaitKey (-1)], Continue).
Proof.
  apply (one_step_reachable "FORWARD" "REVERSE").
  apply valid_command_iff. right. left. reflexivity.
Defined.

Lemma main_loop_unrecognized (post : list capture) (c : string) :
  Forall (λ inp, ¬ recognized_frame inp) post → latch (main_loop post c) = c.
Proof.
  intros Hpost. revert c. induction Hpost as [| inp post Hinp _ IH]; intros c; [done |].
  cbn [main_loop]. pose proof (iteration_preserves inp c Hinp) as Hsame.
  destruct (iteration inp c) as [[c' evs] [| | e]]; cbn in Hsame; subst c'; cbn; auto.
Qed.

(** X8: the latch has no memory beyond the last recognized gesture: while
    the loop runs, a frame with zero, one, two or five extended fingers sets
    the latch to its command whatever was latched before, and the frames
    without a recognized gesture that follow keep it there. *)
Theorem latch_last_recognized (pre post : list capture)
    (mh : option (list hand_landmark)) (key : Z) (fingers : list Z) (c : string) :
  ended (script pre) = Looping →
  extract_fingers (build_lm_list mh) = Ok fingers →
  count fingers 1 ∈ [0; 1; 2; 5] →
  Forall (λ inp, ¬ recognized_frame inp) post →
  latch (script (pre ++ Captured mh key :: post)) = classify fingers c.
Proof.
  intros Hloop Hok Hn Hpost. unfold script in *.
  rewrite main_loop_app, Hloop. cbn [latch main_loop].
  set (c0 := latch (main_loop pre initial_command)).
  unfold iteration. rewrite (interpret_gesture_Ok _ _ c0 Hok).
  assert (classify fingers c0 = classify fingers c) as ->.
  { rewrite !classify_count. rewrite !elem_of_cons, elem_of_nil in Hn.
    by destruct Hn as [-> | [-> | [-> | [-> | []]]]]. }
  destruct (quit_key key); cbn [latch]; [done |].
  by apply main_loop_unrecognized.
Qed.

Lemma latch_last_recognized_witness :
  latch (script ([Captured (Some [fist]) (-1)]
                 ++ Captured (Some [two_fingers]) (-1)
                 :: [Captured (Some [three_fingers]) (-1); ReadFailed;
                     Captured None (-1)]))
  = classify [0; 1; 1; 0; 0] "REVERSE".
Proof.
  apply (latch_last_recognized [Captured (Some [fist]) (-1)]
           [Captured (Some [three_fingers]) (-1); ReadFailed; Captured None (-1)]
           (Some [two_fingers]) (-1) [0; 1; 1; 0; 0] "REVERSE").
  - reflexivity.
  - reflexivity.
  - rewrite !elem_of_cons. right. right. left. reflexivity.
  - repeat constructor.
    + intros (mh & key & state & [= <- <-] & Hlen & Hok & Hn).
      do 6 (destruct state as [| ? state]; try discriminate Hlen).
      vm_compute in Hok. injection Hok as H0 H1 H2 H3 H4.
      destruct b, b0, b1, b2, b3; try discriminate.
      rewrite !elem_of_cons, elem_of_nil in Hn. vm_compute in Hn. lia.
    + intros (mh & key & state & Hinp & _). discriminate Hinp.
    + intros (mh & key & state & [= <- <-] & Hlen & Hok & Hn).
      discriminate Hok.
Defined.

(** ** The events of a run (lines 41-106) *)

Lemma send_command_events (c : string) (e : event) :
  e ∈ send_command c → ∃ m v, e = SetJointTargetVelocity m v.
Proof.
  unfold send_command.
  repeat case_match; rewrite ?elem_of_cons, elem_of_nil; intros Hin;
    repeat (destruct Hin as [-> | Hin]; [eauto |]); done.
Qed.

Lemma main_loop_run_trace (inputs : list capture) (c : string) :
  valid_command c →
  run_trace (ended (main_loop inputs c)) (trace (main_loop inputs c)).
Proof.
  revert c. induction inputs as [| inp inputs IH]; intros c Hc; [constructor |].
  cbn [main_loop]. pose proof (iteration_valid inp c Hc) as Hv.
  destruct (iteration_cases inp c)
    as [[_ Hit] | [(mh & key & e & _ & _ & Hit) | (mh & key & c' & _ & _ & Hit)]];
    rewrite Hit in Hv |- *; cbn in Hv.
  - cbn. by apply IH.
  - constructor.
  - destruct (quit_key key) eqn:Hkey; cbn [ended trace].
    + by constructor.
    + constructor; auto.
Qed.

Lemma run_trace_clean_up (st : status) (tr : list event) (e : event) :
  run_trace st tr → e ∈ clean_up → (e ∈ tr ↔ st = Exited).
Proof.
  intros Hrt He.
  assert (∀ c key, e ∉ send_command c ++ [WaitKey key]) as Hblock.
  { intros c key [(m & v & ->)%send_command_events | ->%list_elem_of_singleton]%elem_of_app;
      unfold clean_up in He; rewrite !elem_of_cons, elem_of_nil in He;
      by destruct He as [? | [? | [? | []]]]. }
  induction Hrt as [| e' | c key Hc Hkey | st c key tr Hc Hkey Hrt IH].
  - split; [by intros ?%elem_of_nil | discriminate].
  - split; [by intros ?%elem_of_nil | discriminate].
  - split; [done |]. intros _. apply elem_of_app. by right.
  - rewrite elem_of_app, IH. split; [| by right].
    intros [Hin | Hex]; [| done]. by apply Hblock in Hin.
Qed.

(** X9: the trace of every run, from the first frame on, is a sequence of
    blocks, one per frame that was shown: the two setpoints of a command of
    the enumeration (left motor, then right) and the key read after them.
    The clean-up comes right after the first quitting key and ends the
    trace; a run that is still looping or that an exception ended has no
    clean-up. *)
Theorem script_run_trace (inputs : list capture) :
  run_trace (ended (script inputs)) (trace (script inputs)).
Proof. apply main_loop_run_trace, valid_command_iff. auto. Qed.

(** X10: the capture is released, the windows are closed and the session
    with the simulator is finished only by a run that leaves the loop on
    the quitting key: a run ended by [IndexError] does none of the three. *)
Theorem clean_up_iff_exited (inputs : list capture) (e : event) :
  e ∈ clean_up →
  (e ∈ trace (script inputs) ↔ ended (script inputs) = Exited).
Proof.
  apply run_trace_clean_up, main_loop_run_trace, valid_command_iff. auto.
Qed.

Lemma clean_up_iff_exited_witness :
  CapRelease ∈ trace (script [Captured (Some [fist]) (-1); Captured (Some [short_hand]) ord_q])
  ↔ ended (script [Captured (Some [fist]) (-1); Captured (Some [short_hand]) ord_q]) = Exited.
Proof.
  apply (clean_up_iff_exited
           [Captured (Some [fist]) (-1); Captured (Some [short_hand]) ord_q] CapRelease).
  unfold clean_up. rewrite !elem_of_cons. left. reflexivity.
Defined.

(** ** Failed reads and the quitting key (lines 42-44 and 100-101) *)

(** X11: an iteration whose read fails does nothing, not even reading the
    keyboard: dropping the failed reads from the captures gives the same
    run, and a run made of failed reads alone sends nothing and cannot be
    left. *)
Theorem failed_reads_skipped (inputs : list capture) (c : string) :
  main_loop (List.filter is_captured inputs) c = main_loop inputs c
  ∧ (List.filter is_captured inputs = [] → main_loop inputs c = Run c [] Looping).
Proof.
  assert (main_loop (List.filter is_captured inputs) c = main_loop inputs c) as Hskip.
  { revert c. induction inputs as [| inp inputs IH]; intros c; [reflexivity |].
    destruct inp as [| mh key]; simpl List.filter.
    - rewrite IH. cbn [main_loop iteration].
      by destruct (main_loop inputs c).
    - cbn [main_loop].
      destruct (iteration (Captured mh key) c) as [[c' evs] [| | e]]; [| done | done].
      by rewrite IH. }
  split; [done |]. intros Hnone. by rewrite <- Hskip, Hnone.
Qed.

(** X12: the loop is left on a key code whose low byte is that of [q]:
    [quit_key] holds exactly when the code is 113 modulo 256, so the value
    -1 that stands for no key never ends the loop. *)
Theorem quit_key_low_byte (key : Z) :
  (quit_key key = true ↔ key `mod` 256 = 113) ∧ quit_key (-1) = false.
Proof.
  split; [| reflexivity].
  unfold quit_key, ord_q. rewrite Z.eqb_eq.
  change 255 with (Z.ones 8). rewrite Z.land_ones by lia. done.
Qed.
